(** * NAGA: transfer-function layers and dataset loaders

    A shallow embedding of [src/datasets.py] and [src/models.py].

    Part I models the two dataset loaders as programs in a small
    state-and-exception monad over an explicit world (file system, remote
    servers, trace of observable effects).

    Part II models the two transfer-function layers over tensors whose
    entries live in an exact field of complex numbers; the float32
    arithmetic of the framework is idealised by exact arithmetic. *)

From HB Require Import structures.
From mathcomp Require Import boot order algebra.
From mathcomp Require Import field.
From Stdlib Require Import String Ascii.

Set Implicit Arguments.
Unset Strict Implicit.
Unset Printing Implicit Defensive.

Import GRing.Theory Num.Theory.

(* ===================================================================== *)
(** * Part I: dataset loaders ([src/datasets.py])                         *)
(* ===================================================================== *)

Module Datasets.

Local Open Scope string_scope.

HB.instance Definition _ := hasDecEq.Build string String.eqb_spec.
HB.instance Definition _ := hasDecEq.Build ascii Ascii.eqb_spec.

(** ** Strings and paths *)

Definition sep : ascii := "/"%char.

Fixpoint last_char (s : string) : option ascii :=
  match s with
  | EmptyString => None
  | String c EmptyString => Some c
  | String _ s' => last_char s'
  end.

Definition startswith_sep (s : string) : bool :=
  if s is String c _ then c == sep else false.

Definition endswith_sep (s : string) : bool := last_char s == Some sep.

(** [posixpath.join] on two components, then folded over the rest as the
    library's loop does. *)
Definition join2 (path b : string) : string :=
  if startswith_sep b then b
  else if (path == "") || endswith_sep path then path ++ b
  else path ++ "/" ++ b.

Definition os_path_join (a : string) (p : seq string) : string :=
  foldl join2 a p.

Fixpoint strip_prefix (pre s : string) : option string :=
  match pre, s with
  | EmptyString, _ => Some s
  | String a pre', String b s' => if a == b then strip_prefix pre' s' else None
  | String _ _, EmptyString => None
  end.

Fixpoint has_char (c : ascii) (s : string) : bool :=
  if s is String a s' then (a == c) || has_char c s' else false.

Fixpoint endswith (suf s : string) : bool :=
  (s == suf) || (if s is String _ s' then endswith suf s' else false).

(** A file name as matched by the pattern [*.wav]: one path component,
    not hidden, with the suffix [.wav]. *)
Definition matches_star_wav (name : string) : bool :=
  [&& ~~ has_char sep name,
      (if name is String c _ then c != "."%char else false)
    & endswith ".wav" name].

(** f-string rendering of the batch index. *)
Definition digit_char (d : nat) : ascii := ascii_of_nat (48 + d).

Definition str_of_idx (idx : nat) : string :=
  if idx < 10 then String (digit_char idx) EmptyString
  else String (digit_char (idx %/ 10))
         (String (digit_char (idx %% 10)) EmptyString).

(** ** Arrays on disk and in memory *)

Inductive dtype := Int16 | UInt8 | Int64 | Float32 | Float64 | OtherDtype.

Definition dtype_eqb (a b : dtype) : bool :=
  match a, b with
  | Int16, Int16 | UInt8, UInt8 | Int64, Int64 => true
  | Float32, Float32 | Float64, Float64 | OtherDtype, OtherDtype => true
  | _, _ => false
  end.

Lemma dtype_eqP : Equality.axiom dtype_eqb.
Proof. by case; case; constructor. Qed.

HB.instance Definition _ := hasDecEq.Build dtype dtype_eqP.

(** What [scipy.io.wavfile.read] returns: the rate, and an array that is
    1-D for one channel and of shape (frames, channels) otherwise. Sample
    values are not tracked: the claims concern shape, dtype and labels. *)
Record wav := Wav {
  sample_rate : nat;
  wav_dtype : dtype;
  wav_shape : seq nat
}.

(** A pickled CIFAR batch: [batch[b"data"]] with its dtype, shape and
    entries in row-major order, and [batch[b"labels"]]. *)
Record cifar_batch := CifarBatch {
  batch_dtype : dtype;
  batch_shape : seq nat;
  batch_values : seq nat;
  batch_labels : seq nat
}.

(** The invariant of a numpy array: as many entries as the shape says,
    and uint8 entries below 256. *)
Definition batch_wf (b : cifar_batch) : bool :=
  (size (batch_values b) == \prod_(d <- batch_shape b) d)
  && ((batch_dtype b == UInt8) ==> all (fun v => v < 256) (batch_values b)).

Inductive node :=
  | Dir
  | WavFile of wav
  | PickleFile of cifar_batch
  | OtherFile.

(** ** The world: file system, network, observable effects *)

Record response := Response {
  status_code : nat;
  (** the archive members, when the body is a well-formed archive *)
  content : option (seq (string * node))
}.

Inductive event :=
  | Print of string
  | HttpGet of string
  | ExtractAll of string
  | GlobDir of string
  | WavRead of string
  | Open of string.

Record world := World {
  fs : seq (string * node);
  (** [None]: the request itself raises (no connection) *)
  net : string -> option response;
  trace : seq event
}.

Inductive exn :=
  | AssertionError of string
  | FileNotFoundError of string
  | ValueError of string
  | ConnectionError of string
  | BadArchive
  | DecodeError of string.

Inductive result (A : Type) := Ok of A | Raise of exn.
Arguments Raise {A} e.

Definition M (A : Type) : Type := world -> result A * world.

Definition ret {A} (a : A) : M A := fun w => (Ok a, w).
Definition raise {A} (e : exn) : M A := fun w => (Raise e, w).
Definition bind {A B} (m : M A) (k : A -> M B) : M B :=
  fun w => match m w with
           | (Ok a, w') => k a w'
           | (Raise e, w') => (Raise e, w')
           end.

Notation "'let!' x ':=' m 'in' k" := (bind m (fun x => k))
  (at level 200, x name, right associativity).
Notation "'do!' m 'in' k" := (bind m (fun _ => k))
  (at level 200, right associativity).

Definition emit (e : event) : M unit :=
  fun w => (Ok tt, World (fs w) (net w) (rcons (trace w) e)).

Definition print (msg : string) : M unit := emit (Print msg).

Definition assert (b : bool) (msg : string) : M unit :=
  if b then ret tt else raise (AssertionError msg).

Definition lookup (p : string) (w : world) : option node :=
  if [seq e <- fs w | e.1 == p] is e :: _ then Some e.2 else None.

Definition os_path_exists (p : string) : M bool :=
  fun w => (Ok (isSome (lookup p w)), w).

Definition requests_get (url : string) : M response :=
  do! emit (HttpGet url) in
  fun w => match net w url with
           | Some r => (Ok r, w)
           | None => (Raise (ConnectionError url), w)
           end.

(** Opening the body as an archive and extracting every member under
    [path]. *)
Definition extractall (r : response) (path : string) : M unit :=
  match content r with
  | None => raise BadArchive
  | Some members =>
      do! emit (ExtractAll path) in
      fun w => (Ok tt,
                World ([seq (join2 path e.1, e.2) | e <- members] ++ fs w)
                      (net w) (trace w))
  end.

(** [glob(os.path.join(dir, "*.wav"))]: the entries directly under [dir]
    whose name matches; a missing directory gives the empty list. *)
Definition wav_files (dir : string) (files : seq (string * node)) : seq string :=
  [seq e.1 | e <- files &
     if strip_prefix (dir ++ "/") e.1 is Some name
     then matches_star_wav name else false].

Definition glob_wav (dir : string) : M (seq string) :=
  do! emit (GlobDir dir) in
  fun w => (Ok (wav_files dir (fs w)), w).

Definition wavfile_read (p : string) : M wav :=
  do! emit (WavRead p) in
  fun w => match lookup p w with
           | Some (WavFile f) => (Ok f, w)
           | Some _ => (Raise (DecodeError p), w)
           | None => (Raise (FileNotFoundError p), w)
           end.

Definition open_pickle (p : string) : M cifar_batch :=
  do! emit (Open p) in
  fun w => match lookup p w with
           | Some (PickleFile b) => (Ok b, w)
           | Some _ => (Raise (DecodeError p), w)
           | None => (Raise (FileNotFoundError p), w)
           end.

Fixpoint for_each {A B} (xs : seq A) (body : A -> M B) : M (seq B) :=
  match xs with
  | [::] => ret [::]
  | x :: xs' => let! b := body x in let! bs := for_each xs' body in ret (b :: bs)
  end.

(** ** numpy at the level of shapes *)

(** [np.pad(a, (0, k))]: the pair is applied to every axis. *)
Definition np_pad_after (shape : seq nat) (k : nat) : seq nat :=
  [seq d + k | d <- shape].

(** [np.stack]: at least one array, all of one shape. *)
Definition np_stack_shape (shapes : seq (seq nat)) : M (seq nat) :=
  match shapes with
  | [::] => raise (ValueError "need at least one array to stack")
  | s :: rest =>
      if all (fun s' => s' == s) rest then ret (size shapes :: s)
      else raise (ValueError "all input arrays must have the same shape")
  end.

(** The in-memory dataset: the data tensor (shape, dtype, and entries
    where they are tracked) and the label tensor. *)
Record tensor_dataset := TensorDataset {
  data_shape : seq nat;
  data_dtype : dtype;
  data_values : seq rat;
  labels : seq nat;
  labels_dtype : dtype
}.

(** [TensorDataset.__init__]: all tensors agree on their first size. *)
Definition tensor_dataset_init (dshape : seq nat) (vals : seq rat)
    (lbls : seq nat) : M tensor_dataset :=
  do! assert (head 0 dshape == size lbls) "Size mismatch between tensors" in
  ret (TensorDataset dshape Float32 vals lbls Int64).

(** The shape of one sample: the data tensor without its first axis. *)
Definition sample_shape (ds : tensor_dataset) : seq nat :=
  behead (data_shape ds).

Definition num_samples (ds : tensor_dataset) : nat := head 0 (data_shape ds).

(** ** SpeechComand.__init__ *)

Definition sc09_url : string :=
  "https://huggingface.co/datasets/krandiash/sc09/resolve/main/sc09.zip".

Definition numbers : seq string :=
  [:: "zero"; "one"; "two"; "three"; "four"; "five"; "six"; "seven";
      "eight"; "nine"].

Definition enumerate {A} (xs : seq A) : seq (nat * A) :=
  zip (iota 0 (size xs)) xs.

Definition SpeechComand_download (path : string) : M unit :=
  let! ex := os_path_exists (os_path_join path [:: "sc09"]) in
  if ~~ ex then
    do! print "Downloading dataset..." in
    let! response := requests_get sc09_url in
    if status_code response == 200 then
      do! extractall response path in
      print "Dataset downloaded and extracted successfully."
    else print "Failed to download the Speech Command dataset."
  else ret tt.

(** One iteration of the inner loop: the padded waveform's shape. *)
Definition SpeechComand_load_file (file_path : string) : M (seq nat) :=
  let! f := wavfile_read file_path in
  do! assert (sample_rate f == 16000) "Sample rate is expected to be 16kHz" in
  do! assert (head 0 (wav_shape f) <= 16000)
             "Audio data is expected to be less than 1 second" in
  do! assert (wav_dtype f == Int16) "Audio data expected to be in int16 format" in
  if last 0 (wav_shape f) <= 16 * 1024 then
    ret (np_pad_after (wav_shape f) (16 * 1024 - last 0 (wav_shape f)))
  else raise (ValueError "index can't contain negative values").

Definition SpeechComand_load (path : string) : M (seq (seq nat * nat)) :=
  let! per_class := for_each (enumerate numbers) (fun ix =>
    let! files := glob_wav (os_path_join path [:: "sc09"; ix.2]) in
    for_each files (fun file_path =>
      let! s := SpeechComand_load_file file_path in ret (s, ix.1))) in
  ret (flatten per_class).

Definition SpeechComand_init (path : string) : M tensor_dataset :=
  do! SpeechComand_download path in
  let! loaded := SpeechComand_load path in
  let! stacked := np_stack_shape [seq sl.1 | sl <- loaded] in
  (* data = np.stack(data)[..., None] / 32768.0, then divided by its
     standard deviation along axis -2, which keeps the shape *)
  let dshape := rcons stacked 1 in
  tensor_dataset_init dshape [::] [seq sl.2 | sl <- loaded].

(** ** CIFAR10Dataset.__init__ *)

Definition cifar_url : string :=
  "https://www.cs.toronto.edu/~kriz/cifar-10-python.tar.gz".

Definition CIFAR10_download (path : string) : M unit :=
  let! ex := os_path_exists (os_path_join path [:: "cifar10"]) in
  if ~~ ex then
    do! print "Downloading CIFAR-10 dataset..." in
    let! response := requests_get cifar_url in
    if status_code response == 200 then
      do! extractall response path in
      print "CIFAR-10 dataset downloaded and extracted successfully."
    else print "Failed to download the CIFAR-10 dataset."
  else ret tt.

Definition batch_file (idx : nat) : string :=
  os_path_join "data" [:: "cifar-10-batches-py"; "data_batch_" ++ str_of_idx idx].

Definition CIFAR10_load_batch (idx : nat) : M cifar_batch :=
  let! batch := open_pickle (batch_file idx) in
  do! assert (batch_dtype batch == UInt8) "Unexpected data type" in
  do! assert (batch_shape batch == [:: 10000; 3072]) "Unexpected shape of data" in
  do! assert (size (batch_labels batch) == 10000) "Unexpected length of labels" in
  ret batch.

Definition CIFAR10_load : M (seq cifar_batch) :=
  for_each [:: 1; 2; 3; 4; 5] CIFAR10_load_batch.

(** [batch[b"data"].reshape(-1, 3, 32, 32)] on a (10000, 3072) array. *)
Definition reshaped (b : cifar_batch) : seq nat :=
  [:: (\prod_(d <- batch_shape b) d) %/ (3 * 32 * 32); 3; 32; 32].

(** [np.concatenate] along the first axis of arrays that agree on the
    other axes (the assertions guarantee it). *)
Definition np_concatenate_shape (shapes : seq (seq nat)) : seq nat :=
  \sum_(s <- shapes) head 0 s :: behead (head [::] shapes).

Definition CIFAR10_init (path : string) : M tensor_dataset :=
  do! CIFAR10_download path in
  let! batches := CIFAR10_load in
  let dshape := np_concatenate_shape [seq reshaped b | b <- batches] in
  let vals := [seq (v%:R / 255%:R : rat)%R | v <- flatten [seq batch_values b | b <- batches]] in
  let lbls := flatten [seq batch_labels b | b <- batches] in
  tensor_dataset_init dshape vals lbls.

End Datasets.

(* ===================================================================== *)
(** * Properties of the dataset loaders                                   *)
(* ===================================================================== *)

Module DatasetsProps.
Import Datasets.
Local Open Scope string_scope.
Local Open Scope seq_scope.

(** ** Concrete worlds used below *)

(** Nothing on disk, and every request answered with status 404. *)
Definition w_404 : world :=
  World [::] (fun _ => Some (Response 404 None)) [::].

(** An extracted CIFAR archive under [data], every request answered 200
    with an empty archive. The batches are empty arrays: they are only
    looked up, never accepted. *)
Definition empty_batch : cifar_batch := CifarBatch UInt8 [:: 0; 3072] [::] [::].

Definition w_cifar_extracted : world :=
  World [:: ("data", Dir);
            ("data/cifar-10-batches-py", Dir);
            ("data/cifar-10-batches-py/data_batch_1", PickleFile empty_batch);
            ("data/cifar-10-batches-py/data_batch_2", PickleFile empty_batch);
            ("data/cifar-10-batches-py/data_batch_3", PickleFile empty_batch);
            ("data/cifar-10-batches-py/data_batch_4", PickleFile empty_batch);
            ("data/cifar-10-batches-py/data_batch_5", PickleFile empty_batch)]
        (fun _ => Some (Response 200 (Some [::]))) [::].

(** One two-channel recording of a single frame in the class folder
    [zero]. *)
Definition w_stereo : world :=
  World [:: ("data/sc09", Dir);
            ("data/sc09/zero", Dir);
            ("data/sc09/zero/a.wav", WavFile (Wav 16000 Int16 [:: 1; 2]))]
        (fun _ => None) [::].

(** One single-channel recording of three frames in the class folder
    [two]. *)
Definition w_mono : world :=
  World [:: ("data/sc09", Dir);
            ("data/sc09/two", Dir);
            ("data/sc09/two/b.wav", WavFile (Wav 16000 Int16 [:: 3]))]
        (fun _ => None) [::].

Definition is_fetch (e : event) : bool := if e is HttpGet _ then true else false.
Definition is_open (e : event) : bool := if e is Open _ then true else false.

Definition opened (t : seq event) : seq string :=
  pmap (fun e => if e is Open p then Some p else None) t.

(** ** The monad: inversion and effect lemmas *)

Lemma bind_ok A B (m : M A) (k : A -> M B) w b w' :
  bind m k w = (Ok b, w') ->
  exists a w1, m w = (Ok a, w1) /\ k a w1 = (Ok b, w').
Proof.
rewrite /bind; case: (m w) => [[a|e] w1] //.
by move=> H; exists a, w1.
Qed.

(** Inverts the successful run of a [bind] on top of the goal. *)
Ltac bind_inv :=
  let H := fresh "Hrun" in move=> H; move: (bind_ok H) => {H}.

Lemma assert_ok b msg w u w' :
  assert b msg w = (Ok u, w') -> b /\ w' = w.
Proof. by rewrite /assert; case: b => //= -[]. Qed.

(** The events a computation adds to the trace. *)
Definition new_events A (m : M A) (w : world) : seq event :=
  drop (size (trace w)) (trace (m w).2).

(** [emits P m]: whatever the world, [m] only appends events, all of
    them satisfying [P]. *)
Definition emits (P : pred event) A (m : M A) : Prop :=
  forall w, exists2 evs, trace (m w).2 = trace w ++ evs & all P evs.

Lemma emits_new_events P A (m : M A) w : emits P m -> all P (new_events m w).
Proof.
by move=> /(_ w) [evs E Hevs]; rewrite /new_events E drop_size_cat.
Qed.

Lemma emits_ret P A (a : A) : emits P (ret a).
Proof. by move=> w; exists [::]; rewrite ?cats0. Qed.

Lemma emits_raise P A e : emits P (@raise A e).
Proof. by move=> w; exists [::]; rewrite ?cats0. Qed.

Lemma emits_emit (P : pred event) e : P e -> emits P (emit e).
Proof. by move=> Pe w; exists [:: e]; rewrite /= ?cats1 ?Pe. Qed.

Lemma emits_assert P b msg : emits P (assert b msg).
Proof. by case: b; [apply: emits_ret | apply: emits_raise]. Qed.

(** A step that leaves the trace alone. *)
Lemma emits_silent P A (m : M A) :
  (forall w, trace (m w).2 = trace w) -> emits P m.
Proof. by move=> H w; exists [::]; rewrite ?cats0. Qed.

Lemma emits_bind P A B (m : M A) (k : A -> M B) :
  emits P m -> (forall a, emits P (k a)) -> emits P (bind m k).
Proof.
move=> Hm Hk w; have [e1 E1 P1] := Hm w.
rewrite /bind; case Em: (m w) E1 => [[a|e] w1] /= E1; last by exists e1.
have [e2 E2 P2] := Hk a w1.
by exists (e1 ++ e2); rewrite ?all_cat ?P1 // E2 E1 catA.
Qed.

Lemma emits_for_each P A B (xs : seq A) (body : A -> M B) :
  (forall x, emits P (body x)) -> emits P (for_each xs body).
Proof.
move=> Hb; elim: xs => [|x xs IH] /=; first exact: emits_ret.
apply: emits_bind => // b; apply: emits_bind => // bs; exact: emits_ret.
Qed.

Lemma emits_requests_get (P : pred event) url :
  P (HttpGet url) -> emits P (requests_get url).
Proof.
move=> Pu; apply: emits_bind; first exact: emits_emit.
by move=> _; apply: emits_silent => w; case: (net w url).
Qed.

Lemma emits_extractall (P : pred event) r path :
  P (ExtractAll path) -> emits P (extractall r path).
Proof.
move=> Pe; rewrite /extractall; case: (content r) => [members|].
  apply: emits_bind; first exact: emits_emit.
  by move=> _; apply: emits_silent.
exact: emits_raise.
Qed.

Lemma emits_glob_wav (P : pred event) dir :
  P (GlobDir dir) -> emits P (glob_wav dir).
Proof.
move=> Pg; apply: emits_bind; first exact: emits_emit.
by move=> _; apply: emits_silent.
Qed.

Lemma emits_wavfile_read (P : pred event) p :
  P (WavRead p) -> emits P (wavfile_read p).
Proof.
move=> Pw; apply: emits_bind; first exact: emits_emit.
by move=> _; apply: emits_silent => w; case: (lookup p w) => [[]|].
Qed.

Lemma emits_open_pickle (P : pred event) p :
  P (Open p) -> emits P (open_pickle p).
Proof.
move=> Po; apply: emits_bind; first exact: emits_emit.
by move=> _; apply: emits_silent => w; case: (lookup p w) => [[]|].
Qed.

Lemma emits_tensor_dataset_init P dshape vals lbls :
  emits P (tensor_dataset_init dshape vals lbls).
Proof.
apply: emits_bind; first exact: emits_assert.
by move=> _; apply: emits_ret.
Qed.

Lemma emits_np_stack_shape P shapes : emits P (np_stack_shape shapes).
Proof.
case: shapes => [|s rest] /=; first exact: emits_raise.
by case: ifP => _; [apply: emits_ret | apply: emits_raise].
Qed.

(** The steps of the two loaders by the events they can emit. *)

Lemma emits_SpeechComand_download path :
  emits (predC is_open) (SpeechComand_download path).
Proof.
apply: emits_bind; first exact: emits_silent.
case=> /=; first exact: emits_ret.
apply: emits_bind; first exact: emits_emit.
move=> _; apply: emits_bind; first exact: emits_requests_get.
move=> r; case: ifP => _; last exact: emits_emit.
apply: emits_bind; first exact: emits_extractall.
by move=> _; apply: emits_emit.
Qed.

Lemma emits_CIFAR10_download path :
  emits (predC is_open) (CIFAR10_download path).
Proof.
apply: emits_bind; first exact: emits_silent.
case=> /=; first exact: emits_ret.
apply: emits_bind; first exact: emits_emit.
move=> _; apply: emits_bind; first exact: emits_requests_get.
move=> r; case: ifP => _; last exact: emits_emit.
apply: emits_bind; first exact: emits_extractall.
by move=> _; apply: emits_emit.
Qed.

Lemma emits_SpeechComand_load_file p :
  emits (predC is_fetch) (SpeechComand_load_file p).
Proof.
apply: emits_bind; first exact: emits_wavfile_read.
move=> f; do 3![apply: emits_bind; first exact: emits_assert; move=> _].
by case: ifP => _; [apply: emits_ret | apply: emits_raise].
Qed.

Lemma emits_SpeechComand_load path :
  emits (predC is_fetch) (SpeechComand_load path).
Proof.
apply: emits_bind; last by move=> ?; apply: emits_ret.
apply: emits_for_each => ix.
apply: emits_bind; first exact: emits_glob_wav.
move=> files; apply: emits_for_each => p.
apply: emits_bind; first exact: emits_SpeechComand_load_file.
by move=> ?; apply: emits_ret.
Qed.

Lemma emits_CIFAR10_load_batch idx :
  emits (predC is_fetch) (CIFAR10_load_batch idx).
Proof.
apply: emits_bind; first exact: emits_open_pickle.
move=> b; do 3![apply: emits_bind; first exact: emits_assert; move=> _].
exact: emits_ret.
Qed.

Lemma emits_CIFAR10_load : emits (predC is_fetch) CIFAR10_load.
Proof. by apply: emits_for_each => idx; apply: emits_CIFAR10_load_batch. Qed.

Lemma emitsT P A (m : M A) : emits P m -> emits predT m.
Proof. by move=> H w; have [evs E _] := H w; exists evs => //; apply: all_predT. Qed.

Definition is_ok A (r : result A) : bool := if r is Ok _ then true else false.

Lemma new_events_bind A B (m : M A) (k : A -> M B) w :
  emits predT m -> (forall a, emits predT (k a)) ->
  new_events (bind m k) w =
  new_events m w ++
  (if m w is (Ok a, w1) then new_events (k a) w1 else [::]).
Proof.
move=> Hm Hk; have [e1 E1 _] := Hm w.
rewrite /new_events /bind; case Em: (m w) E1 => [[a|e] w1] /= E1.
  have [e2 E2 _] := Hk a w1.
  rewrite E2 (drop_size_cat e2 (erefl (size (trace w1)))) E1.
  by rewrite -catA !drop_size_cat.
by rewrite cats0.
Qed.

Lemma new_events_emit e w : new_events (emit e) w = [:: e].
Proof. by rewrite /new_events /= -cats1 drop_size_cat. Qed.

Lemma new_events_silent A (m : M A) w :
  trace (m w).2 = trace w -> new_events m w = [::].
Proof. by rewrite /new_events => ->; rewrite drop_size. Qed.

Lemma opened_cat t1 t2 : opened (t1 ++ t2) = opened t1 ++ opened t2.
Proof. exact: pmap_cat. Qed.

Lemma opened_none t : all (predC is_open) t -> opened t = [::].
Proof. by elim: t => [|[] ? t IH] //= /IH. Qed.

Lemma fetch_none t : all (predC is_fetch) t -> has is_fetch t = false.
Proof. by rewrite all_predC => /negbTE. Qed.

(** ** Which directory decides the download *)

(** The download step fetches exactly when the directory it tests is
    absent; both loaders share this shape and differ in the name. *)
Ltac run_download :=
  rewrite /new_events /bind /os_path_exists /print /requests_get /bind /emit /=;
  case: (lookup _ _) => [?|] /=; first (by rewrite drop_size);
  case: (net _ _) => [?|] /=;
  [ case: ifP => _ /=; rewrite /extractall /bind /raise /emit;
    try match goal with |- context [content ?r] => case: (content r) => [?|] /= end
  |];
  by rewrite -!cats1 -!catA drop_size_cat.

Lemma SpeechComand_download_fetch path w :
  has is_fetch (new_events (SpeechComand_download path) w) =
  ~~ isSome (lookup (os_path_join path [:: "sc09"]) w).
Proof. rewrite /SpeechComand_download; run_download. Qed.

Lemma CIFAR10_download_fetch path w :
  has is_fetch (new_events (CIFAR10_download path) w) =
  ~~ isSome (lookup (os_path_join path [:: "cifar10"]) w).
Proof. rewrite /CIFAR10_download; run_download. Qed.

Lemma emits_SpeechComand_rest path :
  emits (predC is_fetch)
    (let! loaded := SpeechComand_load path in
     let! stacked := np_stack_shape [seq sl.1 | sl <- loaded] in
     tensor_dataset_init (rcons stacked 1) [::] [seq sl.2 | sl <- loaded]).
Proof.
apply: emits_bind; first exact: emits_SpeechComand_load.
move=> loaded; apply: emits_bind; first exact: emits_np_stack_shape.
by move=> ?; apply: emits_tensor_dataset_init.
Qed.

(** X3: the audio loader performs the network fetch exactly when
    [path/sc09], the directory it then loads from, is absent. *)
Lemma SpeechComand_init_fetch path w :
  has is_fetch (new_events (SpeechComand_init path) w) =
  ~~ isSome (lookup (os_path_join path [:: "sc09"]) w).
Proof.
rewrite /SpeechComand_init new_events_bind; last first.
- rewrite has_cat SpeechComand_download_fetch.
  case: (SpeechComand_download path w) => [[u|e] w1]; last by rewrite orbF.
  by rewrite (fetch_none (emits_new_events _ (emits_SpeechComand_rest path))) orbF.
- by move=> _; apply: emitsT (emits_SpeechComand_rest path).
- exact: emitsT (emits_SpeechComand_download path).
Qed.

Lemma emits_CIFAR10_rest :
  emits (predC is_fetch)
    (let! batches := CIFAR10_load in
     tensor_dataset_init
       (np_concatenate_shape [seq reshaped b | b <- batches])
       [seq (v%:R / 255%:R : rat)%R
          | v <- flatten [seq batch_values b | b <- batches]]
       (flatten [seq batch_labels b | b <- batches])).
Proof.
apply: emits_bind; first exact: emits_CIFAR10_load.
by move=> ?; apply: emits_tensor_dataset_init.
Qed.

(** X4: the CIFAR loader performs the network fetch exactly when
    [path/cifar10] is absent: a name that the extracted archive never
    creates. *)
Lemma CIFAR10_init_fetch path w :
  has is_fetch (new_events (CIFAR10_init path) w) =
  ~~ isSome (lookup (os_path_join path [:: "cifar10"]) w).
Proof.
rewrite /CIFAR10_init new_events_bind; last first.
- rewrite has_cat CIFAR10_download_fetch.
  case: (CIFAR10_download path w) => [[u|e] w1]; last by rewrite orbF.
  by rewrite (fetch_none (emits_new_events _ emits_CIFAR10_rest)) orbF.
- by move=> _; apply: emitsT emits_CIFAR10_rest.
- exact: emitsT (emits_CIFAR10_download path).
Qed.

(** C6 (code defect), evaluated at the failing input: with the extracted
    directory [data/cifar-10-batches-py] and its five batch files on disk,
    constructing the CIFAR loader with the default path still performs the
    network fetch, whereas the audio loader with [data/sc09] on disk does
    not fetch. *)
Theorem C6_cifar_fetches_although_extracted :
  [/\ isSome (lookup "data/cifar-10-batches-py" w_cifar_extracted),
      all (fun idx => isSome (lookup (batch_file idx) w_cifar_extracted))
          [:: 1; 2; 3; 4; 5],
      has is_fetch (new_events (CIFAR10_init "data") w_cifar_extracted) = true,
      isSome (lookup "data/sc09" w_mono)
    & has is_fetch (new_events (SpeechComand_init "data") w_mono) = false].
Proof. by split; vm_compute. Qed.

(** ** A failed fetch *)

(** C7, counterexample: with nothing on disk and the server answering
    404, the audio loader does not end in a file-not-found error; the
    directories it lists are merely empty and stacking no arrays raises a
    ValueError. *)
Lemma C7_audio_failure_is_not_file_not_found :
  [/\ fs w_404 = [::],
      net w_404 sc09_url = Some (Response 404 None),
      (SpeechComand_download "data" w_404).1 = Ok tt
    & (SpeechComand_init "data" w_404).1 =
      Raise (ValueError "need at least one array to stack")].
Proof. by split; vm_compute. Qed.

(** C7, amended: when the fetch is answered with a status other than 200
    and nothing is on disk, the download step of either loader returns
    normally after printing the failure; the CIFAR loader then fails with
    a file-not-found error on its first batch file, and the audio loader
    fails with a ValueError because there is nothing to stack. *)
Theorem C7_failed_fetch (path : string) (w : world) (r1 r2 : response) :
  fs w = [::] ->
  net w sc09_url = Some r1 -> status_code r1 != 200 ->
  net w cifar_url = Some r2 -> status_code r2 != 200 ->
  [/\ (SpeechComand_download path w).1 = Ok tt,
      new_events (SpeechComand_download path) w =
        [:: Print "Downloading dataset..."; HttpGet sc09_url;
            Print "Failed to download the Speech Command dataset."]
    & (SpeechComand_init path w).1 =
        Raise (ValueError "need at least one array to stack")] /\
  [/\ (CIFAR10_download path w).1 = Ok tt,
      new_events (CIFAR10_download path) w =
        [:: Print "Downloading CIFAR-10 dataset..."; HttpGet cifar_url;
            Print "Failed to download the CIFAR-10 dataset."]
    & (CIFAR10_init path w).1 =
        Raise (FileNotFoundError "data/cifar-10-batches-py/data_batch_1")].
Proof.
case: w => fs0 net0 tr0 /= -> H1 /negbTE S1 H2 /negbTE S2.
rewrite /new_events /SpeechComand_init /CIFAR10_init.
rewrite /SpeechComand_download /CIFAR10_download /requests_get /print.
rewrite /bind /emit /= /lookup /= H1 H2 /= S1 S2 /=.
rewrite /SpeechComand_load /CIFAR10_load /CIFAR10_load_batch /open_pickle.
rewrite /glob_wav /bind /emit /=.
by do 2!split=> //; rewrite -!cats1 -!catA drop_size_cat.
Qed.

Lemma C7_failed_fetch_witness :
  [/\ (SpeechComand_download "data" w_404).1 = Ok tt,
      new_events (SpeechComand_download "data") w_404 =
        [:: Print "Downloading dataset..."; HttpGet sc09_url;
            Print "Failed to download the Speech Command dataset."]
    & (SpeechComand_init "data" w_404).1 =
        Raise (ValueError "need at least one array to stack")] /\
  [/\ (CIFAR10_download "data" w_404).1 = Ok tt,
      new_events (CIFAR10_download "data") w_404 =
        [:: Print "Downloading CIFAR-10 dataset..."; HttpGet cifar_url;
            Print "Failed to download the CIFAR-10 dataset."]
    & (CIFAR10_init "data" w_404).1 =
        Raise (FileNotFoundError "data/cifar-10-batches-py/data_batch_1")].
Proof.
exact: (@C7_failed_fetch "data" w_404 (Response 404 None) (Response 404 None)
          erefl erefl isT erefl isT).
Defined.

(** ** Where the CIFAR batches are read from *)

Definition cifar_batch_files : seq string :=
  [:: "data/cifar-10-batches-py/data_batch_1";
      "data/cifar-10-batches-py/data_batch_2";
      "data/cifar-10-batches-py/data_batch_3";
      "data/cifar-10-batches-py/data_batch_4";
      "data/cifar-10-batches-py/data_batch_5"].

Lemma opened_CIFAR10_load_batch idx w :
  opened (new_events (CIFAR10_load_batch idx) w) = [:: batch_file idx].
Proof.
rewrite /new_events /CIFAR10_load_batch /open_pickle /bind /emit /=.
case: (lookup _ _) => [[|f|b|]|] /=; rewrite -?cats1 ?drop_size_cat //.
rewrite /assert; do 3![case: ifP => _ /=; rewrite ?drop_size_cat //].
Qed.

Lemma opened_for_each A B (xs : seq A) (body : A -> M B) (f : A -> string) :
  (forall x, emits predT (body x)) ->
  (forall x w, opened (new_events (body x) w) = [:: f x]) ->
  forall w, exists k,
    [/\ k <= size xs,
        opened (new_events (for_each xs body) w) = [seq f x | x <- take k xs]
      & is_ok (for_each xs body w).1 -> k = size xs].
Proof.
move=> Hem Hop; elim: xs => [|x xs IH] w /=.
  by exists 0; split=> //; rewrite new_events_silent.
have Hxs : emits predT (for_each xs body) by apply: emits_for_each.
rewrite new_events_bind //; first
  by move=> b; apply: emits_bind => // bs; apply: emits_ret.
rewrite opened_cat Hop /bind.
case Eb: (body x w) => [[b|e] w1] /=; last by exists 1; split=> //=; rewrite take0.
have [k [Hk Eo Hok]] := IH w1.
exists k.+1; split=> //.
  rewrite new_events_bind //; first by move=> bs; apply: emits_ret.
  rewrite opened_cat Eo /=.
  by case: (for_each xs body w1) => [[bs|e] w2] /=;
     rewrite ?new_events_silent ?cats0.
by case: (for_each xs body w1) Hok => [[bs|e] w2] //= -> .
Qed.

(** X1: whatever [path] is, the only files the CIFAR loader opens are
    the five batch files under the fixed directory [data], attempted in
    order up to the first failure; when construction succeeds, exactly
    those five files have been opened. *)
Theorem cifar_reads_fixed_directory (path : string) (w : world) :
  (exists k, k <= 5 /\
     opened (new_events (CIFAR10_init path) w) = take k cifar_batch_files) /\
  (is_ok (CIFAR10_init path w).1 ->
     opened (new_events (CIFAR10_init path) w) = cifar_batch_files).
Proof.
have Hd := emits_CIFAR10_download path.
have HdT := emitsT Hd.
have HrT (u : unit) := emitsT emits_CIFAR10_rest.
have HlT := emitsT emits_CIFAR10_load.
have HtT bs := emitsT (@emits_tensor_dataset_init predT
   (np_concatenate_shape [seq reshaped b | b <- bs])
   [seq (v%:R / 255%:R : rat)%R | v <- flatten [seq batch_values b | b <- bs]]
   (flatten [seq batch_labels b | b <- bs])).
rewrite /CIFAR10_init new_events_bind //.
rewrite opened_cat (opened_none (emits_new_events w Hd)) /= /bind.
case: (CIFAR10_download path w) => [[u|e] w1] /=; last by split=> //; exists 0.
rewrite new_events_bind //.
have [k [Hk Eo Hok]] :=
  @opened_for_each _ _ [:: 1; 2; 3; 4; 5] CIFAR10_load_batch batch_file
    (fun idx => emitsT (emits_CIFAR10_load_batch idx))
    opened_CIFAR10_load_batch w1.
rewrite opened_cat Eo -/CIFAR10_load.
have Et bs w2 : opened (new_events (tensor_dataset_init
     (np_concatenate_shape [seq reshaped b | b <- bs])
     [seq (v%:R / 255%:R : rat)%R | v <- flatten [seq batch_values b | b <- bs]]
     (flatten [seq batch_labels b | b <- bs])) w2) = [::].
  apply: opened_none; apply: emits_new_events.
  exact: emits_tensor_dataset_init.
have -> : opened (let (r, w2) := CIFAR10_load w1 in
            if r is Ok bs then new_events (tensor_dataset_init
              (np_concatenate_shape [seq reshaped b | b <- bs])
              [seq (v%:R / 255%:R : rat)%R
                 | v <- flatten [seq batch_values b | b <- bs]]
              (flatten [seq batch_labels b | b <- bs])) w2 else [::]) = [::].
  by case: (CIFAR10_load w1) => [[bs|e] w2].
have -> : cifar_batch_files = [seq batch_file i | i <- [:: 1; 2; 3; 4; 5]].
  by [].
rewrite cats0; split.
  by exists k; split=> //; rewrite -map_take.
move=> Hinit.
have Hl : is_ok (for_each [:: 1; 2; 3; 4; 5] CIFAR10_load_batch w1).1.
  by move: Hinit; rewrite /CIFAR10_load; case: (for_each _ _ _) => [[bs|e] w2].
by rewrite (Hok Hl) take_size.
Qed.

(** ** Successful runs *)

Fixpoint All2 A B (R : A -> B -> Prop) (xs : seq A) (bs : seq B) : Prop :=
  match xs, bs with
  | [::], [::] => True
  | x :: xs', b :: bs' => R x b /\ All2 R xs' bs'
  | _, _ => False
  end.

Lemma ret_ok A (a b : A) w w' : ret a w = (Ok b, w') -> b = a /\ w' = w.
Proof. by case=> -> ->. Qed.

(** A loop whose body leaves the file system alone and establishes [R]
    on success does so for every element. *)
Lemma for_each_ok A B (R : A -> B -> Prop) (body : A -> M B) fs0 :
  (forall x w b w', fs w = fs0 -> body x w = (Ok b, w') ->
     fs w' = fs0 /\ R x b) ->
  forall xs w bs w', fs w = fs0 -> for_each xs body w = (Ok bs, w') ->
    fs w' = fs0 /\ All2 R xs bs.
Proof.
move=> Hbody; elim=> [|x xs IH] w bs w' Hw /=.
  by rewrite /ret => -[<- <-].
bind_inv=> -[b [w1 [/(Hbody _ _ _ _ Hw) [Hw1 Rxb]]]].
bind_inv=> -[bs1 [w2 [/(IH _ _ _ Hw1) [Hw2 Hall]]]].
by rewrite /ret => -[<- <-].
Qed.

Lemma tensor_dataset_init_ok dshape vals lbls w ds w' :
  tensor_dataset_init dshape vals lbls w = (Ok ds, w') ->
  [/\ ds = TensorDataset dshape Float32 vals lbls Int64,
      head 0 dshape = size lbls & w' = w].
Proof.
bind_inv=> -[u [w1 [/(@assert_ok _ _ _ _ _) [/eqP Hsz ->]]]].
by rewrite /ret => -[<- <-].
Qed.

Lemma open_pickle_ok p w b w' :
  open_pickle p w = (Ok b, w') ->
  fs w' = fs w /\ lookup p w = Some (PickleFile b).
Proof.
rewrite /open_pickle /bind /emit /= /lookup /=.
by case: [seq e <- fs w | e.1 == p] => [|[q [|f|b'|]] l] //= [<- <-].
Qed.

Lemma CIFAR10_load_batch_ok idx w b w' :
  CIFAR10_load_batch idx w = (Ok b, w') ->
  [/\ fs w' = fs w, lookup (batch_file idx) w = Some (PickleFile b),
      batch_dtype b = UInt8, batch_shape b = [:: 10000; 3072]
    & size (batch_labels b) = 10000].
Proof.
bind_inv=> -[b0 [w1 [/open_pickle_ok [Hfs Hl]]]].
bind_inv=> -[u1 [w2 [/(@assert_ok _ _ _ _ _) [/eqP Hd ->]]]].
bind_inv=> -[u2 [w3 [/(@assert_ok _ _ _ _ _) [/eqP Hs ->]]]].
bind_inv=> -[u3 [w4 [/(@assert_ok _ _ _ _ _) [/eqP Hn ->]]]].
by rewrite /ret => -[<- <-]; rewrite -Hfs.
Qed.

Lemma reshaped_ok b :
  batch_shape b = [:: 10000; 3072] -> reshaped b = [:: 10000; 3; 32; 32].
Proof.
rewrite /reshaped => ->; rewrite big_cons big_seq1.
have -> : 3 * 32 * 32 = 3072 by [].
by rewrite mulnK.
Qed.

Lemma pixel_range (v : nat) :
  v < 256 -> (0 <= (v%:R / 255%:R : rat) <= 1)%R.
Proof.
move=> Hv; apply/andP; split.
  by apply: divr_ge0; apply: ler0n.
have H255 : (0 < 255%:R :> rat)%R by rewrite ltr0n.
by rewrite (ler_pdivrMr _ _ H255) mul1r ler_nat.
Qed.

Lemma download_fs_lookup p w w' : fs w' = fs w -> lookup p w' = lookup p w.
Proof. by rewrite /lookup => ->. Qed.

(** X2: when construction of the CIFAR loader succeeds (so five batches
    passed the assertions) and the batch arrays on disk are well-formed
    uint8 arrays, the dataset holds 50000 samples and as many labels, each
    image has shape (3, 32, 32), the data tensor is float32, and every
    pixel value lies in [0, 1]. *)
Theorem cifar_dataset_shape_and_range
    (path : string) (w w' : world) (ds : tensor_dataset) :
  CIFAR10_init path w = (Ok ds, w') ->
  (forall p b, lookup p w' = Some (PickleFile b) -> batch_wf b) ->
  [/\ num_samples ds = 50000, size (labels ds) = 50000,
      sample_shape ds = [:: 3; 32; 32], data_dtype ds = Float32
    & all (fun v : rat => (0 <= v <= 1)%R) (data_values ds)].
Proof.
bind_inv=> -[u [w1 [_]]].
bind_inv=> -[batches [w2 [Hload /tensor_dataset_init_ok [-> Hsz Ew]]]] Hwf.
have [Hfs Hall] :
  fs w2 = fs w1 /\
  All2 (fun idx b => [/\ lookup (batch_file idx) w2 = Some (PickleFile b),
          batch_dtype b = UInt8, batch_shape b = [:: 10000; 3072]
        & size (batch_labels b) = 10000]) [:: 1; 2; 3; 4; 5] batches.
  have H := @for_each_ok _ _
    (fun idx b => [/\ lookup (batch_file idx) w1 = Some (PickleFile b),
        batch_dtype b = UInt8, batch_shape b = [:: 10000; 3072]
      & size (batch_labels b) = 10000]) CIFAR10_load_batch (fs w1) _
    [:: 1; 2; 3; 4; 5] w1 batches w2 (erefl _) Hload.
  have [|Hfs Hall] := H.
    move=> idx v b v' Hv /CIFAR10_load_batch_ok [-> Hl Hd Hs Hn]; split=> //.
    by split=> //; rewrite -Hl; apply/esym/download_fs_lookup.
  split=> //; move: Hall; rewrite /All2.
  by rewrite !(@download_fs_lookup _ w1 w2 Hfs).
case: batches Hall Hload Hsz => [|b1 [|b2 [|b3 [|b4 [|b5 [|b6 bs]]]]]] //=;
  try by (do ![case=> _] => //).
move=> [[L1 D1 S1 N1] [[L2 D2 S2 N2] [[L3 D3 S3 N3] [[L4 D4 S4 N4]
        [[L5 D5 S5 N5] _]]]]] _ _.
have W i b : lookup (batch_file i) w2 = Some (PickleFile b) ->
    batch_dtype b = UInt8 -> all (fun v => v < 256) (batch_values b).
  by rewrite -Ew => /Hwf /andP [_ /implyP H] Hd; apply: H; rewrite Hd.
rewrite /num_samples /sample_shape /np_concatenate_shape /=.
rewrite !reshaped_ok // !big_cons big_nil /= !size_cat N1 N2 N3 N4 N5.
split=> //.
rewrite all_map /= !all_cat /=.
have P b : all (fun v => v < 256) (batch_values b) ->
    all (preim (fun v : nat => (v%:R / 255%:R : rat)%R)
           (fun v : rat => (0 <= v <= 1)%R)) (batch_values b).
  by move=> /allP H; apply/allP => v /H /pixel_range.
rewrite (P _ (W 1 _ L1 D1)) (P _ (W 2 _ L2 D2)) (P _ (W 3 _ L3 D3)).
by rewrite (P _ (W 4 _ L4 D4)) (P _ (W 5 _ L5 D5)).
Qed.

(** *** Construction succeeds on five valid batches *)

Definition cifar_dataset_of (bs : seq cifar_batch) : tensor_dataset :=
  TensorDataset (np_concatenate_shape [seq reshaped b | b <- bs]) Float32
    [seq (v%:R / 255%:R : rat)%R | v <- flatten [seq batch_values b | b <- bs]]
    (flatten [seq batch_labels b | b <- bs]) Int64.

Definition batch_accepted (b : cifar_batch) : Prop :=
  [/\ batch_dtype b = UInt8, batch_shape b = [:: 10000; 3072]
    & size (batch_labels b) = 10000].

Lemma CIFAR10_load_batch_run idx f n t b :
  lookup (batch_file idx) (World f n t) = Some (PickleFile b) ->
  batch_accepted b ->
  CIFAR10_load_batch idx (World f n t) =
  (Ok b, World f n (rcons t (Open (batch_file idx)))).
Proof.
move=> Hl [Hd Hs Hn].
rewrite /CIFAR10_load_batch /open_pickle /bind /emit /=.
have -> : lookup (batch_file idx)
            (World f n (rcons t (Open (batch_file idx)))) =
          Some (PickleFile b) by rewrite -Hl.
by rewrite Hd Hs Hn !eqxx.
Qed.

(** X5: when the download step returns and the five batch files under
    [data/cifar-10-batches-py] hold arrays that pass the three assertions,
    construction succeeds; the data tensor holds the batches' entries in
    batch order, each divided by 255, and the label tensor is the
    concatenation of the batches' labels in the same order. *)
Theorem cifar_init_succeeds (path : string) (w : world)
    f n t (b1 b2 b3 b4 b5 : cifar_batch) :
  CIFAR10_download path w = (Ok tt, World f n t) ->
  lookup (batch_file 1) (World f n t) = Some (PickleFile b1) ->
  lookup (batch_file 2) (World f n t) = Some (PickleFile b2) ->
  lookup (batch_file 3) (World f n t) = Some (PickleFile b3) ->
  lookup (batch_file 4) (World f n t) = Some (PickleFile b4) ->
  lookup (batch_file 5) (World f n t) = Some (PickleFile b5) ->
  [/\ batch_accepted b1, batch_accepted b2, batch_accepted b3,
      batch_accepted b4 & batch_accepted b5] ->
  CIFAR10_init path w =
  (Ok (cifar_dataset_of [:: b1; b2; b3; b4; b5]),
   World f n (t ++ [seq Open p | p <- cifar_batch_files])).
Proof.
move=> Hdl L1 L2 L3 L4 L5 [A1 A2 A3 A4 A5].
rewrite /CIFAR10_init {1}/bind Hdl /CIFAR10_load.
rewrite [for_each _ _]/= /bind.
rewrite (CIFAR10_load_batch_run (idx := 1) L1 A1).
rewrite (CIFAR10_load_batch_run (idx := 2) (b := b2)) //.
rewrite (CIFAR10_load_batch_run (idx := 3) (b := b3)) //.
rewrite (CIFAR10_load_batch_run (idx := 4) (b := b4)) //.
rewrite (CIFAR10_load_batch_run (idx := 5) (b := b5)) //.
rewrite /ret /tensor_dataset_init /bind /cifar_dataset_of.
case: A1 A2 A3 A4 A5 => [_ S1 N1] [_ S2 N2] [_ S3 N3] [_ S4 N4] [_ S5 N5].
have -> : head 0 (np_concatenate_shape
            [seq reshaped b | b <- [:: b1; b2; b3; b4; b5]]) ==
          size (flatten [seq batch_labels b | b <- [:: b1; b2; b3; b4; b5]]).
  rewrite /np_concatenate_shape [map _ _]/= !big_cons big_nil.
  rewrite !reshaped_ok // [flatten _]/= !size_cat N1 N2 N3 N4 N5.
  by rewrite [head _ _]/= [size [::]]/=.
rewrite /assert /ret /=.
by rewrite -!cats1 -!catA.
Qed.

(** *** A world on which the CIFAR loader succeeds *)

Definition cifar_ok_batch (vals lbls : seq nat) : cifar_batch :=
  CifarBatch UInt8 [:: 10000; 3072] vals lbls.

Definition cifar_ok_fs (vals lbls : seq nat) : seq (string * node) :=
  [:: ("data/cifar10", Dir);
      ("data/cifar-10-batches-py/data_batch_1", PickleFile (cifar_ok_batch vals lbls));
      ("data/cifar-10-batches-py/data_batch_2", PickleFile (cifar_ok_batch vals lbls));
      ("data/cifar-10-batches-py/data_batch_3", PickleFile (cifar_ok_batch vals lbls));
      ("data/cifar-10-batches-py/data_batch_4", PickleFile (cifar_ok_batch vals lbls));
      ("data/cifar-10-batches-py/data_batch_5", PickleFile (cifar_ok_batch vals lbls))].

Definition cifar_ok_world (vals lbls : seq nat) (t : seq event) : world :=
  World (cifar_ok_fs vals lbls) (fun _ => None) t.

Definition cifar_ok_dataset (vals lbls : seq nat) : tensor_dataset :=
  let bs := nseq 5 (cifar_ok_batch vals lbls) in
  TensorDataset (np_concatenate_shape [seq reshaped b | b <- bs]) Float32
    [seq (v%:R / 255%:R : rat)%R | v <- flatten [seq batch_values b | b <- bs]]
    (flatten [seq batch_labels b | b <- bs]) Int64.


Lemma cifar_ok_world_init vals lbls :
  size lbls = 10000 ->
  CIFAR10_init "data" (cifar_ok_world vals lbls [::]) =
  (Ok (cifar_ok_dataset vals lbls),
   cifar_ok_world vals lbls [seq Open p | p <- cifar_batch_files]).
Proof.
move=> Hl.
by apply: (@cifar_init_succeeds "data" _ _ _ [::]).
Qed.

Lemma cifar_ok_world_wf vals lbls t :
  size vals = 10000 * 3072 -> all (fun v => v < 256) vals ->
  forall p b, lookup p (cifar_ok_world vals lbls t) = Some (PickleFile b) ->
    batch_wf b.
Proof.
move=> Hs Hv p b; rewrite /lookup /=.
have Hwf : batch_wf (cifar_ok_batch vals lbls).
  by rewrite /batch_wf /= Hv big_cons big_seq1 Hs eqxx.
by do 6![case: (_ == p) => /=; first by case=> // <-].
Qed.

Lemma cifar_dataset_shape_and_range_witness :
  let ds := cifar_ok_dataset (nseq (10000 * 3072) 0) (nseq 10000 0) in
  [/\ num_samples ds = 50000, size (labels ds) = 50000,
      sample_shape ds = [:: 3; 32; 32], data_dtype ds = Float32
    & all (fun v : rat => (0 <= v <= 1)%R) (data_values ds)].
Proof.
apply: (@cifar_dataset_shape_and_range "data"
          (cifar_ok_world (nseq (10000 * 3072) 0) (nseq 10000 0) [::])
          (cifar_ok_world (nseq (10000 * 3072) 0) (nseq 10000 0)
             [seq Open p | p <- cifar_batch_files])).
  by apply: cifar_ok_world_init; rewrite size_nseq.
apply: cifar_ok_world_wf; first by rewrite size_nseq.
by rewrite all_nseq orbT.
Defined.

(** ** The audio loader on success *)

(** The recordings the loading step reads, in the order it reads them,
    each with the index of its class folder. *)
Definition sample_files (path : string) (files : seq (string * node)) :
    seq (string * nat) :=
  flatten [seq [seq (p, ix.1) | p <- wav_files (os_path_join path [:: "sc09"; ix.2]) files]
             | ix <- enumerate numbers].

(** What the three assertions and the padding establish for one file. *)
Definition wav_accepted (f : wav) : Prop :=
  [/\ sample_rate f = 16000, head 0 (wav_shape f) <= 16000,
      wav_dtype f = Int16 & last 0 (wav_shape f) <= 16 * 1024].

Definition padded_shape (f : wav) : seq nat :=
  np_pad_after (wav_shape f) (16 * 1024 - last 0 (wav_shape f)).

Definition loaded_from (files : seq (string * node))
    (fi : string * nat) (sl : seq nat * nat) : Prop :=
  sl.2 = fi.2 /\
  exists f, [/\ lookup fi.1 (World files (fun _ => None) [::]) = Some (WavFile f),
               wav_accepted f & sl.1 = padded_shape f].

Lemma All2_cat A B (R : A -> B -> Prop) xs1 ys1 xs2 ys2 :
  All2 R xs1 ys1 -> All2 R xs2 ys2 -> All2 R (xs1 ++ xs2) (ys1 ++ ys2).
Proof.
elim: xs1 ys1 => [|x xs1 IH] [|y ys1] //= [Rxy H1] H2.
by split=> //; apply: IH.
Qed.

Lemma All2_flatten A B (R : A -> B -> Prop) xss yss :
  All2 (All2 R) xss yss -> All2 R (flatten xss) (flatten yss).
Proof.
elim: xss yss => [|xs xss IH] [|ys yss] //= [H1 H2].
by apply: All2_cat => //; apply: IH.
Qed.

Lemma All2_map_left A A' B (R : A' -> B -> Prop) (g : A -> A') xs ys :
  All2 (fun x y => R (g x) y) xs ys -> All2 R [seq g x | x <- xs] ys.
Proof. by elim: xs ys => [|x xs IH] [|y ys] //= [Rxy /IH]. Qed.


Lemma wavfile_read_ok p w f w' :
  wavfile_read p w = (Ok f, w') ->
  fs w' = fs w /\ lookup p w = Some (WavFile f).
Proof.
rewrite /wavfile_read /bind /emit /= /lookup /=.
by case: [seq e <- fs w | e.1 == p] => [|[q [|f'|b'|]] l] //= [<- <-].
Qed.

Lemma SpeechComand_load_file_ok p w s w' :
  SpeechComand_load_file p w = (Ok s, w') ->
  fs w' = fs w /\
  exists f, [/\ lookup p w = Some (WavFile f), wav_accepted f
               & s = padded_shape f].
Proof.
bind_inv=> -[f [w1 [/wavfile_read_ok [Hfs Hl]]]].
bind_inv=> -[u1 [w2 [/(@assert_ok _ _ _ _ _) [/eqP Hr ->]]]].
bind_inv=> -[u2 [w3 [/(@assert_ok _ _ _ _ _) [Hn ->]]]].
bind_inv=> -[u3 [w4 [/(@assert_ok _ _ _ _ _) [/eqP Hd ->]]]].
case: ifP => // Hlast; rewrite /ret => -[<- <-]; split=> //.
by exists f; split.
Qed.

Lemma lookup_fs p w : lookup p w = lookup p (World (fs w) (fun _ => None) [::]).
Proof. by []. Qed.

Lemma glob_wav_ok dir w files w' :
  glob_wav dir w = (Ok files, w') ->
  fs w' = fs w /\ files = wav_files dir (fs w).
Proof. by rewrite /glob_wav /bind /emit /= => -[<- <-]. Qed.

Lemma SpeechComand_load_ok path w loaded w' :
  SpeechComand_load path w = (Ok loaded, w') ->
  fs w' = fs w /\
  All2 (loaded_from (fs w)) (sample_files path (fs w)) loaded.
Proof.
bind_inv=> -[per_class [w1 [Hloop]]]; rewrite /ret => -[<- <-].
have [|Hfs Hall] := @for_each_ok _ _
  (fun ix res => All2 (loaded_from (fs w))
     [seq (p, ix.1) | p <- wav_files (os_path_join path [:: "sc09"; ix.2]) (fs w)]
     res) _ (fs w) _ (enumerate numbers) w per_class w1 (erefl _) Hloop.
  move=> ix v res v' Hv.
  bind_inv=> -[files [v1 [/glob_wav_ok [Hv1 ->]]]] Hin.
  rewrite Hv in Hv1 Hin.
  have [|Hv' Hres] := @for_each_ok _ _
    (fun p sl => loaded_from (fs w) (p, ix.1) sl) _ (fs w) _
    (wav_files (os_path_join path [:: "sc09"; ix.2]) (fs w)) v1 res v' Hv1 Hin.
    move=> p u sl u' Hu.
    bind_inv=> -[s [u1 [/SpeechComand_load_file_ok [Hu1 [f [Hl Hacc ->]]]]]].
    rewrite /ret => -[<- <-]; split; first by rewrite Hu1.
    split=> //; exists f; split=> //.
    by rewrite -Hl (lookup_fs p u) Hu.
  by split=> //; apply: All2_map_left.
split=> //; apply: All2_flatten.
by rewrite /sample_files; elim: (enumerate numbers) per_class Hall {Hloop}
  => [|ix l IH] [|r rs] //= [H1 /IH H2].
Qed.

Lemma All2_in (A B : eqType) (R : A -> B -> Prop) xs ys :
  All2 R xs ys -> forall x, x \in xs -> exists2 y, y \in ys & R x y.
Proof.
elim: xs ys => [|x xs IH] [|y ys] //= [Rxy Hall] z.
rewrite in_cons => /orP [/eqP ->|/(IH _ Hall) [y' Hy' Rzy]].
  by exists y; rewrite ?mem_head.
by exists y'; rewrite // in_cons Hy' orbT.
Qed.


Lemma np_stack_shape_ok shapes w st w' :
  np_stack_shape shapes w = (Ok st, w') ->
  [/\ w' = w, st = size shapes :: head [::] shapes,
      all (fun s => s == head [::] shapes) shapes & shapes != [::]].
Proof.
case: shapes => [|s rest] //=; case: ifP => // Hall [<- <-].
by rewrite eqxx.
Qed.


(** The shape of the data tensor after a successful run: every recording
    read has the same padded shape, and a sample is that shape with a
    trailing axis of length 1. *)
Lemma SpeechComand_init_ok path w ds w' :
  SpeechComand_init path w = (Ok ds, w') ->
  exists loaded,
    [/\ All2 (loaded_from (fs w')) (sample_files path (fs w')) loaded,
        ds = TensorDataset
               (rcons (size loaded :: head [::] [seq sl.1 | sl <- loaded]) 1)
               Float32 [::] [seq sl.2 | sl <- loaded] Int64,
        all (fun s => s == head [::] [seq sl.1 | sl <- loaded])
            [seq sl.1 | sl <- loaded]
      & loaded != [::]].
Proof.
bind_inv=> -[u [w1 [_]]].
bind_inv=> -[loaded [w2 [/SpeechComand_load_ok [Hfs Hall]]]].
bind_inv=> -[st [w3 [/np_stack_shape_ok [-> -> Hsame Hne]]]].
move=> /tensor_dataset_init_ok [-> _ ->].
exists loaded; rewrite Hfs size_map; split=> //.
by case: loaded Hne {Hall Hsame}.
Qed.


(** X7: when construction of the audio loader succeeds, every sample has
    the padded shape of each recording read, followed by one channel axis:
    numpy pads every axis of the waveform by 16384 minus its last axis. *)
Theorem audio_sample_shape (path : string) (w w' : world) (ds : tensor_dataset) :
  SpeechComand_init path w = (Ok ds, w') ->
  forall fi, fi \in sample_files path (fs w') ->
    exists f, [/\ lookup fi.1 w' = Some (WavFile f), wav_accepted f
                 & sample_shape ds = rcons (padded_shape f) 1].
Proof.
move=> /SpeechComand_init_ok [loaded [Hall -> Hsame _]] fi Hfi.
have [sl Hsl [_ [f [Hl Hacc Hs]]]] := All2_in Hall Hfi.
exists f; split=> //; rewrite /sample_shape /= -Hs.
have /(allP Hsame) /eqP -> // : sl.1 \in [seq sl.1 | sl <- loaded].
exact: map_f.
Qed.

(** X8: for single-channel recordings (one-dimensional waveforms, as in
    SC09) a successful construction stores samples of exactly 16384 time
    steps and 1 channel. *)
Theorem audio_mono_samples (path : string) (w w' : world) (ds : tensor_dataset) :
  SpeechComand_init path w = (Ok ds, w') ->
  (forall p f, lookup p w' = Some (WavFile f) -> size (wav_shape f) = 1) ->
  sample_shape ds = [:: 16384; 1].
Proof.
move=> Hinit Hmono.
have [loaded [Hall Eds Hsame Hne]] := SpeechComand_init_ok Hinit.
case Esf: (sample_files path (fs w')) => [|fi sfs].
  by move: Hall Hne; rewrite Esf; case: loaded {Eds Hsame}.
have [|f [Hl [_ Hn _ _] ->]] := audio_sample_shape Hinit (fi := fi).
  by rewrite Esf mem_head.
move: (Hmono _ _ Hl) Hn; rewrite /padded_shape /np_pad_after.
case: (wav_shape f) => [|n [|? ?]] //= _ Hn.
by rewrite subnKC // (leq_trans Hn).
Qed.


(** *** Witnesses on the two small audio worlds *)

Definition ds_mono : tensor_dataset :=
  TensorDataset [:: 1; 16384; 1] Float32 [::] [:: 2] Int64.

Definition ds_stereo : tensor_dataset :=
  TensorDataset [:: 1; 16383; 16384; 1] Float32 [::] [:: 0] Int64.

Definition w_mono_final : world := (SpeechComand_init "data" w_mono).2.
Definition w_stereo_final : world := (SpeechComand_init "data" w_stereo).2.

Lemma init_mono : SpeechComand_init "data" w_mono = (Ok ds_mono, w_mono_final).
Proof. by vm_compute. Qed.

Lemma init_stereo :
  SpeechComand_init "data" w_stereo = (Ok ds_stereo, w_stereo_final).
Proof. by vm_compute. Qed.

Lemma mono_listed :
  ("data/sc09/two/b.wav", 2) \in sample_files "data" (fs w_mono_final).
Proof. by vm_compute. Qed.

Lemma stereo_listed :
  ("data/sc09/zero/a.wav", 0) \in sample_files "data" (fs w_stereo_final).
Proof. by vm_compute. Qed.

Lemma w_mono_is_mono p f :
  lookup p w_mono_final = Some (WavFile f) -> size (wav_shape f) = 1.
Proof.
rewrite (_ : lookup p w_mono_final = lookup p w_mono) // /lookup /=.
by do 3![case: (_ == p) => /=; first by case=> // <-].
Qed.


Lemma audio_sample_shape_witness :
  exists f, [/\ lookup "data/sc09/zero/a.wav" w_stereo_final = Some (WavFile f),
               wav_accepted f
             & sample_shape ds_stereo = rcons (padded_shape f) 1].
Proof. exact: (audio_sample_shape init_stereo stereo_listed). Defined.

Lemma audio_mono_samples_witness : sample_shape ds_mono = [:: 16384; 1].
Proof. exact: (audio_mono_samples init_mono w_mono_is_mono). Defined.


Lemma cifar_ok_download vals lbls :
  CIFAR10_download "data" (cifar_ok_world vals lbls [::]) =
  (Ok tt, World (cifar_ok_fs vals lbls) (fun _ => None) [::]).
Proof. by []. Qed.

Lemma cifar_ok_lookup vals lbls idx :
  idx \in [:: 1; 2; 3; 4; 5] ->
  lookup (batch_file idx)
         (World (cifar_ok_fs vals lbls) (fun _ => None) [::]) =
  Some (PickleFile (cifar_ok_batch vals lbls)).
Proof. by rewrite !inE; do 4![case/orP; first by move/eqP->]; move/eqP->. Qed.

Lemma cifar_ok_accepted vals lbls :
  size lbls = 10000 -> batch_accepted (cifar_ok_batch vals lbls).
Proof. by move=> Hl; split. Qed.

Lemma cifar_init_succeeds_witness :
  CIFAR10_init "data"
    (cifar_ok_world (nseq (10000 * 3072) 0) (nseq 10000 0) [::]) =
  (Ok (cifar_dataset_of
         (nseq 5 (cifar_ok_batch (nseq (10000 * 3072) 0) (nseq 10000 0)))),
   World (cifar_ok_fs (nseq (10000 * 3072) 0) (nseq 10000 0)) (fun _ => None)
         ([::] ++ [seq Open p | p <- cifar_batch_files])).
Proof.
have A := cifar_ok_accepted (nseq (10000 * 3072) 0) (size_nseq 10000 0).
exact: (cifar_init_succeeds
          (cifar_ok_download (nseq (10000 * 3072) 0) (nseq 10000 0))
          (cifar_ok_lookup _ _ (idx := 1) isT)
          (cifar_ok_lookup _ _ (idx := 2) isT)
          (cifar_ok_lookup _ _ (idx := 3) isT)
          (cifar_ok_lookup _ _ (idx := 4) isT)
          (cifar_ok_lookup _ _ (idx := 5) isT)
          (And5 A A A A A)).
Defined.

End DatasetsProps.

(* ===================================================================== *)
(** * Part II: transfer-function layers ([src/models.py])                 *)
(* ===================================================================== *)

Module Models.

Inductive error :=
  | AssertionError
  | ValueError      (* tuple unpacking of a shape or of [unbind] *)
  | RuntimeError.   (* raised by the tensor framework *)

Inductive res (A : Type) := Ok of A | Err of error.
Arguments Err {A} e.

Definition rbind {A B} (m : res A) (k : A -> res B) : res B :=
  match m with Ok a => k a | Err e => Err e end.

Notation "'let?' x ':=' m 'in' k" := (rbind m (fun x => k))
  (at level 200, x name, right associativity).

Section Layers.

(** Entries are taken in an exact field of complex numbers; [omega n]
    stands for the root of unity exp(2 pi i / n) of the transforms.
    Floating point is idealised: rounding is absent, and a division by
    zero, which yields an infinity or a nan in the source, has the value
    the field gives it. Statements about the entries of an output are
    therefore made where the divisors are not zero ([LTI_regular],
    [LTI2d_regular]); the two-dimensional layer has inputs for which
    the source does divide by zero, shown below. *)
Variable C : numClosedFieldType.
Variable omega : nat -> C.

Local Open Scope ring_scope.

(** ** Tensors *)

(** A dense tensor: its shape and its entries by multi-index (outermost
    axis first). Entries outside the shape are never observed. *)
Record tensor := Tensor { shape : seq nat; data : seq nat -> C }.

(** Axes are addressed from the end, as the source does with negative
    dimensions: [p = 1] is the last axis, [p = 2] the one before it. *)
Definition get_dim (s : seq nat) (p : nat) : nat := nth 0%N (rev s) p.-1.
Definition set_dim (s : seq nat) (p : nat) (v : nat) : seq nat :=
  rev (set_nth 0%N (rev s) p.-1 v).

Definition has_dim (s : seq nat) (p : nat) : bool := (0 < p <= size s)%N.

Definition zeros (s : seq nat) : tensor := Tensor s (fun _ => 0).

(** ** The framework's primitives *)

(** [pad(t, (1, 0), value=v)]: one entry [v] in front of the axis [p]. *)
Definition pad_front (t : tensor) (p : nat) (v : C) : tensor :=
  Tensor (set_dim (shape t) p (get_dim (shape t) p).+1)
         (fun ix => if get_dim ix p is k.+1 then data t (set_dim ix p k)
                    else v).

(** The input of a transform of length [n] along axis [p]: trimmed or
    zero-padded to [n] entries. *)
Definition along (t : tensor) (p : nat) (ix : seq nat) (j : nat) : C :=
  if (j < get_dim (shape t) p)%N then data t (set_dim ix p j) else 0.

(** [fft(t, n, dim=-p)] and [ifft(t, n, dim=-p)]. *)
Definition fft (t : tensor) (n p : nat) : res tensor :=
  if (0 < n)%N && has_dim (shape t) p then
    Ok (Tensor (set_dim (shape t) p n)
          (fun ix => \sum_(0 <= j < n)
                       along t p ix j * omega n ^- (j * get_dim ix p)))
  else Err RuntimeError.

Definition ifft (t : tensor) (n p : nat) : res tensor :=
  if (0 < n)%N && has_dim (shape t) p then
    Ok (Tensor (set_dim (shape t) p n)
          (fun ix => n%:R^-1 *
                     \sum_(0 <= k < n)
                       along t p ix k * omega n ^+ (k * get_dim ix p)))
  else Err RuntimeError.

(** [rfft(t, n, dim=-p)]: the first [n/2 + 1] bins of the transform. *)
Definition rfft (t : tensor) (n p : nat) : res tensor :=
  if (0 < n)%N && has_dim (shape t) p then
    Ok (Tensor (set_dim (shape t) p (n./2 + 1))
          (fun ix => \sum_(0 <= j < n)
                       along t p ix j * omega n ^- (j * get_dim ix p)))
  else Err RuntimeError.

(** The Hermitian completion of a one-sided spectrum of a length-[n]
    real signal; the imaginary parts of the bins that must be real are
    ignored. *)
Definition hermitian (n : nat) (X : nat -> C) (k : nat) : C :=
  if (k == 0)%N || (k.*2 == n)%N then 'Re (X k)
  else if (k.*2 < n)%N then X k
  else (X (n - k)%N)^*.

(** [irfft(t, n, dim=-p)]. *)
Definition irfft (t : tensor) (n p : nat) : res tensor :=
  if (0 < n)%N && has_dim (shape t) p then
    Ok (Tensor (set_dim (shape t) p n)
          (fun ix => n%:R^-1 *
                     \sum_(0 <= k < n)
                       hermitian n (along t p ix) k
                       * omega n ^+ (k * get_dim ix p)))
  else Err RuntimeError.

(** Broadcasting: shapes are aligned at the last axis; an axis of length
    1 is stretched. *)
Fixpoint broadcast_rev (s1 s2 : seq nat) : option (seq nat) :=
  match s1, s2 with
  | [::], _ => Some s2
  | _, [::] => Some s1
  | d1 :: s1', d2 :: s2' =>
      if (d1 == d2) || (d2 == 1%N) then omap (cons d1) (broadcast_rev s1' s2')
      else if d1 == 1%N then omap (cons d2) (broadcast_rev s1' s2')
      else None
  end.

Definition broadcast_shapes (s1 s2 : seq nat) : option (seq nat) :=
  omap rev (broadcast_rev (rev s1) (rev s2)).

(** The index into an operand of shape [s] for the index [ix] of the
    broadcast result. *)
Definition bix (s : seq nat) (ix : seq nat) : seq nat :=
  [seq (if di.1 == 1%N then 0%N else di.2)
     | di <- zip s (drop (size ix - size s) ix)].

Definition pointwise (f : C -> C -> C) (a b : tensor) : res tensor :=
  if broadcast_shapes (shape a) (shape b) is Some s then
    Ok (Tensor s (fun ix => f (data a (bix (shape a) ix))
                              (data b (bix (shape b) ix))))
  else Err RuntimeError.

Definition tadd := pointwise +%R.
Definition tdiv := pointwise (fun u v => u / v).

Definition tconj (t : tensor) : tensor :=
  Tensor (shape t) (fun ix => (data t ix)^*).

(** [t[i]] along the first axis, as produced by [torch.unbind(t, dim=0)]. *)
Definition select0 (t : tensor) (i : nat) : tensor :=
  Tensor (behead (shape t)) (fun ix => data t (i :: ix)).

(** [torch.flip(t, dims=(-p,))]. *)
Definition flip (t : tensor) (p : nat) : tensor :=
  Tensor (shape t)
         (fun ix => data t (set_dim ix p (get_dim (shape t) p - (get_dim ix p).+1))).

(** [t[..., :n, ...]] on axis [p]. *)
Definition narrow (t : tensor) (p n : nat) : tensor :=
  Tensor (set_dim (shape t) p (minn n (get_dim (shape t) p))) (data t).

(** Subscripted axes of an einsum must agree or have length 1. *)
Definition ein_dim (d1 d2 : nat) : option nat :=
  if (d1 == d2) || (d2 == 1%N) then Some d1
  else if d1 == 1%N then Some d2 else None.

Definition bidx (d i : nat) : nat := if d == 1%N then 0%N else i.

(** [torch.einsum("...li,...ijl->...lj", X, H)] for a three-axis [H]
    (the ellipsis of [H] is empty for the parameters of a layer). *)
Definition einsum_li_ijl (X H : tensor) : res tensor :=
  if (rev (shape X), shape H) is (Xi :: Xl :: rB, [:: Hi; Hj; Hl]) then
    if (ein_dim Xl Hl, ein_dim Xi Hi) is (Some l, Some i) then
      Ok (Tensor (rev (Hj :: l :: rB))
            (fun ix =>
               let j := get_dim ix 1 in
               let f := get_dim ix 2 in
               \sum_(0 <= k < i)
                 data X (set_dim (set_dim ix 1 (bidx Xi k)) 2 (bidx Xl f))
                 * data H [:: bidx Hi k; j; bidx Hl f]))
    else Err RuntimeError
  else Err RuntimeError.

(** [torch.einsum("...li,...il->...li", X, H)] for a two-axis [H]. *)
Definition einsum_li_il (X H : tensor) : res tensor :=
  if (rev (shape X), shape H) is (Xi :: Xl :: rB, [:: Hi; Hl]) then
    if (ein_dim Xl Hl, ein_dim Xi Hi) is (Some l, Some i) then
      Ok (Tensor (rev (i :: l :: rB))
            (fun ix =>
               let k := get_dim ix 1 in
               let f := get_dim ix 2 in
               data X (set_dim (set_dim ix 1 (bidx Xi k)) 2 (bidx Xl f))
               * data H [:: bidx Hi k; bidx Hl f]))
    else Err RuntimeError
  else Err RuntimeError.

(** ** The one-dimensional layer *)

Record LTI := MkLTI {
  order : nat;
  causal : bool;
  mimo : bool;
  h0 : tensor;
  numerators : tensor;
  denumerator : tensor
}.

(** [torch.randn] is a stream of draws: the [i]-th call of the
    constructor gets the entries [randn i]. The division by [order] is
    the field's: a random initialization of order 0, which divides by
    zero in the source, is outside the statements about entries. *)
Variable randn : nat -> seq nat -> C.

Definition initializer (zero_init : bool) (order i : nat) (s : seq nat) : tensor :=
  if zero_init then zeros s
  else Tensor s (fun ix => randn i ix / order%:R).

Definition param_shape (input_dim output_dim : nat) (mimo : bool) : seq nat :=
  if mimo then [:: input_dim; output_dim] else [:: input_dim].

Definition LTI_init (input_dim output_dim order : nat)
    (causal mimo zero_init : bool) : res LTI :=
  if mimo || (input_dim == output_dim) then
    let shp := param_shape input_dim output_dim mimo in
    let init := initializer zero_init order in
    Ok (MkLTI order causal mimo
          (init 0%N (shp ++ [:: 1%N]))
          (init 1%N (2%N :: shp ++ [:: order]))
          (init 2%N (shp ++ [:: order])))
  else Err AssertionError.

(** [a, b = torch.unbind(t, dim=0)]. *)
Definition unbind2 (t : tensor) : res (tensor * tensor) :=
  if shape t is 2%N :: _ then Ok (select0 t 0, select0 t 1)
  else if shape t is _ :: _ then Err ValueError else Err RuntimeError.

Definition LTI_call (m : LTI) (x : tensor) : res tensor :=
  if rev (shape x) is D :: L :: rB then
    (* compute truncated impulse response *)
    let a := pad_front (denumerator m) 1 1 in
    let b := pad_front (numerators m) 1 0 in
    let? Fb := rfft b L 1 in
    let? Fa := rfft a L 1 in
    let? H_truncated := tdiv Fb Fa in
    let? h_truncated := irfft H_truncated L 1 in
    (* transfer function padded to 2L for convolution *)
    let? H := rfft h_truncated (2 * L) 1 in
    let? Hs := unbind2 H in
    let? H := if causal m then tadd (h0 m) Hs.1
              else let? Hc := tadd (h0 m) Hs.1 in tadd Hc (tconj Hs.2) in
    (* convolution in frequency domain *)
    let? X := rfft x (2 * L) 2 in
    let? Y := if mimo m then einsum_li_ijl X H else einsum_li_il X H in
    let? y := irfft Y (2 * (get_dim (shape Y) 2 - 1)) 2 in
    Ok (narrow y 2 L)
  else Err ValueError.

(** ** The two-dimensional layer *)

(** [rfft2(t, s=(n1, n2), dim=(-(p+1), -p))]: one-sided along the axis
    [p], full along the axis before it; [irfft2] undoes the full
    transform first. *)
Definition rfft2 (t : tensor) (n1 n2 p : nat) : res tensor :=
  let? r := rfft t n2 p in fft r n1 p.+1.

Definition irfft2 (t : tensor) (n1 n2 p : nat) : res tensor :=
  let? c := ifft t n1 p.+1 in irfft c n2 p.

(** [torch.einsum("...hwi,...ijhw->...hwj", X, H)] for a four-axis [H]. *)
Definition einsum_hwi_ijhw (X H : tensor) : res tensor :=
  if (rev (shape X), shape H) is (Xi :: Xw :: Xh :: rB, [:: Hi; Hj; Hh; Hw]) then
    if (ein_dim Xh Hh, ein_dim Xw Hw, ein_dim Xi Hi) is (Some h, Some w, Some i) then
      Ok (Tensor (rev (Hj :: w :: h :: rB))
            (fun ix =>
               let j := get_dim ix 1 in
               let v := get_dim ix 2 in
               let u := get_dim ix 3 in
               \sum_(0 <= k < i)
                 data X (set_dim (set_dim (set_dim ix 1 (bidx Xi k))
                                    2 (bidx Xw v)) 3 (bidx Xh u))
                 * data H [:: bidx Hi k; j; bidx Hh u; bidx Hw v]))
    else Err RuntimeError
  else Err RuntimeError.

(** [torch.einsum("...hwi,...ihw->...hwi", X, H)] for a three-axis [H]. *)
Definition einsum_hwi_ihw (X H : tensor) : res tensor :=
  if (rev (shape X), shape H) is (Xi :: Xw :: Xh :: rB, [:: Hi; Hh; Hw]) then
    if (ein_dim Xh Hh, ein_dim Xw Hw, ein_dim Xi Hi) is (Some h, Some w, Some i) then
      Ok (Tensor (rev (i :: w :: h :: rB))
            (fun ix =>
               let k := get_dim ix 1 in
               let v := get_dim ix 2 in
               let u := get_dim ix 3 in
               data X (set_dim (set_dim (set_dim ix 1 (bidx Xi k))
                                  2 (bidx Xw v)) 3 (bidx Xh u))
               * data H [:: bidx Hi k; bidx Hh u; bidx Hw v]))
    else Err RuntimeError
  else Err RuntimeError.

Record LTI2d := MkLTI2d {
  order2 : nat;
  causal2 : bool;
  mimo2 : bool;
  h0_2d : tensor;
  numerators2 : tensor;
  denumerator2 : tensor
}.

Definition LTI2d_init (input_dim output_dim order : nat)
    (causal mimo zero_init : bool) : res LTI2d :=
  if mimo || (input_dim == output_dim) then
    let shp := param_shape input_dim output_dim mimo in
    let init := initializer zero_init order in
    Ok (MkLTI2d order causal mimo
          (init 0%N (shp ++ [:: 1%N; 1%N]))
          (init 1%N (4%N :: shp ++ [:: order; order]))
          (init 2%N (shp ++ [:: order; order])))
  else Err AssertionError.

(** [a, b, c, d = torch.unbind(t, dim=0)]. *)
Definition unbind4 (t : tensor) : res (tensor * tensor * tensor * tensor) :=
  if shape t is 4%N :: _ then
    Ok (select0 t 0, select0 t 1, select0 t 2, select0 t 3)
  else if shape t is _ :: _ then Err ValueError else Err RuntimeError.

Definition LTI2d_call (m : LTI2d) (x : tensor) : res tensor :=
  if rev (shape x) is D :: L2 :: L1 :: rB then
    (* compute truncated impulse response *)
    let a := pad_front (pad_front (denumerator2 m) 1 1) 2 1 in
    let b := pad_front (pad_front (numerators2 m) 1 0) 2 0 in
    let? Fb := rfft2 b L1 L2 1 in
    let? Fa := rfft2 a L1 L2 1 in
    let? H_truncated := tdiv Fb Fa in
    let? h_truncated := irfft2 H_truncated L1 L2 1 in
    (* transfer function padded to 2L for convolution *)
    let? H := rfft2 h_truncated (2 * L1) (2 * L2) 1 in
    let? Hs := unbind4 H in
    let: (H_cc, H_ca, H_ac, H_aa) := Hs in
    let? H :=
      if causal2 m then tadd (h0_2d m) H_cc
      else
        let H_ca := flip H_ca 2 in
        let H_ac := tconj (flip H_ac 2) in
        let H_aa := tconj H_aa in
        let? s1 := tadd (h0_2d m) H_cc in
        let? s2 := tadd s1 H_ca in
        let? s3 := tadd s2 H_ac in
        tadd s3 H_aa in
    (* convolution in frequency domain *)
    let? X := rfft2 x (2 * L1) (2 * L2) 2 in
    let? Y := if mimo2 m then einsum_hwi_ijhw X H else einsum_hwi_ihw X H in
    let? y := irfft2 Y (2 * L1) (2 * L2) 2 in
    Ok (narrow (narrow y 3 L1) 2 L2)
  else Err ValueError.

(* ===================================================================== *)
(** * Properties of the layers                                            *)
(* ===================================================================== *)

(** ** Shapes *)

Lemma rev_cat2 (B : seq nat) a b : rev (B ++ [:: a; b]) = b :: a :: rev B.
Proof. by rewrite rev_cat. Qed.


Lemma rev_cat3 (B : seq nat) a b c :
  rev (B ++ [:: a; b; c]) = c :: b :: a :: rev B.
Proof. by rewrite rev_cat. Qed.







Lemma shape_initializer z ord k s : shape (initializer z ord k s) = s.
Proof. by rewrite /initializer; case: z. Qed.


























(** X11: an input whose sequence axis is empty makes the forward call of
    any layer raise: the transforms refuse a length of 0. *)
Theorem LTI_forward_empty_sequence (l : LTI) (x : tensor) (B : seq nat)
    (D : nat) :
  shape x = B ++ [:: 0%N; D] -> LTI_call l x = Err RuntimeError.
Proof. by move=> Hx; rewrite /LTI_call Hx rev_cat2. Qed.

(** X16: an input with fewer than two axes fails the unpacking of its
    shape, for any layer. *)
Theorem LTI_forward_low_rank (l : LTI) (x : tensor) :
  (size (shape x) < 2)%N -> LTI_call l x = Err ValueError.
Proof. by rewrite /LTI_call -size_rev; case: (rev _) => [|? [|? ?]]. Qed.

(** ** A layer whose parameters are zero *)

Definition tzero (t : tensor) : Prop := forall ix, data t ix = 0.

Lemma rbind_inv A B (m : res A) (k : A -> res B) b :
  rbind m k = Ok b -> exists2 a, m = Ok a & k a = Ok b.
Proof. by case: m => //= a Hk; exists a. Qed.

Ltac rinv :=
  let H := fresh "Hrun" in move=> H; case: (rbind_inv H) => {H}.

Lemma tzero_zeros s : tzero (zeros s).
Proof. by []. Qed.













Lemma tzero_narrow t p n : tzero t -> tzero (narrow t p n).
Proof. by []. Qed.








(** ** The discrete Fourier transform *)

Section DFT.

Variable n : nat.
Hypothesis n_gt0 : (0 < n)%N.
Hypothesis wP : n.-primitive_root (omega n).
Let w := omega n.

Definition dft (f : nat -> C) (k : nat) : C :=
  \sum_(0 <= j < n) f j * w ^- (j * k).

Lemma w_neq0 : w != 0.
Proof. by rewrite /w (prim_root_eq0 wP) -lt0n. Qed.

Lemma w_unit : w \is a GRing.unit.
Proof. by rewrite unitfE w_neq0. Qed.




















Lemma dft0 k : dft (fun _ => 0) k = 0.
Proof. by rewrite /dft big1 // => j _; rewrite mul0r. Qed.



End DFT.
(** ** The layer in the time domain *)

Section TimeDomain.

Hypothesis omegaP : forall n, (0 < n)%N -> n.-primitive_root (omega n).


Lemma rfft_data t n p r :
  rfft t n p = Ok r ->
  forall ix, data r ix = dft n (along t p ix) (get_dim ix p).
Proof. by rewrite /rfft; case: ifP => // _ [<-]. Qed.












(** *** From the circular convolution to the window of length [L] *)

Section Window.

Variables (M : nat) (xs hc ha : nat -> C) (c0 : C) (b : bool).
Hypothesis M_gt0 : (0 < M)%N.
Let n := (2 * M)%N.






End Window.

(** *** The transfer function as a spectrum *)









(** The shapes the constructor gives to the parameters; training changes
    the entries, not the shapes. *)
Definition LTI_wf (input_dim output_dim : nat) (l : LTI) : Prop :=
  let shp := param_shape input_dim output_dim (mimo l) in
  [/\ shape (h0 l) = shp ++ [:: 1%N],
      shape (numerators l) = 2%N :: shp ++ [:: order l]
    & shape (denumerator l) = shp ++ [:: order l]].

Lemma LTI_init_wf i o ord c mi z l :
  LTI_init i o ord c mi z = Ok l ->
  [/\ LTI_wf i o l, mimo l = mi, causal l = c & order l = ord].
Proof.
rewrite /LTI_init; case: ifP => // _ [<-]; split=> //.
by split; rewrite /= shape_initializer.
Qed.












Lemma get_set_dim (ix : seq nat) p v : get_dim (set_dim ix p v) p = v.
Proof. by rewrite /get_dim /set_dim revK nth_set_nth /= eqxx. Qed.





(** ** The two-dimensional layer *)











(** The shapes the constructor gives to the parameters. *)
Definition LTI2d_wf (input_dim output_dim : nat) (l : LTI2d) : Prop :=
  let shp := param_shape input_dim output_dim (mimo2 l) in
  [/\ shape (h0_2d l) = shp ++ [:: 1%N; 1%N],
      shape (numerators2 l) = 4%N :: shp ++ [:: order2 l; order2 l]
    & shape (denumerator2 l) = shp ++ [:: order2 l; order2 l]].

Lemma LTI2d_init_wf i o ord c mi z l :
  LTI2d_init i o ord c mi z = Ok l ->
  [/\ LTI2d_wf i o l, mimo2 l = mi, causal2 l = c & order2 l = ord].
Proof.
rewrite /LTI2d_init; case: ifP => // _ [<-]; split=> //.
by split; rewrite /= shape_initializer.
Qed.

















(** X18: an input with an empty height or width axis makes the forward
    call of any two-dimensional layer raise: the transforms refuse a
    length of 0. *)
Theorem LTI2d_forward_empty_axis (l : LTI2d) (x : tensor) (B : seq nat)
    (L1 L2 D : nat) :
  (L1 == 0%N) || (L2 == 0%N) -> shape x = B ++ [:: L1; L2; D] ->
  LTI2d_call l x = Err RuntimeError.
Proof.
move=> H0 Hx; rewrite /LTI2d_call Hx rev_cat3 /rfft2 /rfft /fft {Hx}.
case: L2 H0 => [|L2]; first by [].
rewrite orbF => /eqP ->; rewrite [(0 < _.+1)%N]/=.
by case: (has_dim _ 1) => //=; rewrite andbF.
Qed.

(** X19: an input with fewer than three axes fails the unpacking of its
    shape, for any two-dimensional layer. *)
Theorem LTI2d_forward_low_rank (l : LTI2d) (x : tensor) :
  (size (shape x) < 3)%N -> LTI2d_call l x = Err ValueError.
Proof.
by rewrite /LTI2d_call -size_rev; case: (rev _) => [|? [|? [|? ?]]].
Qed.

(** *** Inputs of height 1 or width 1 *)

Lemma get_set_dim_neq (ix : seq nat) p q v :
  p.-1 != q.-1 -> get_dim (set_dim ix p v) q = get_dim ix q.
Proof.
move=> Hpq; rewrite /get_dim /set_dim revK nth_set_nth /=.
by rewrite eq_sym (negbTE Hpq).
Qed.

Lemma fft_data t n p r :
  fft t n p = Ok r ->
  forall ix, data r ix = dft n (along t p ix) (get_dim ix p).
Proof. by rewrite /fft; case: ifP => // _ [<-]. Qed.

Lemma rfft_shape t n p r :
  rfft t n p = Ok r -> shape r = set_dim (shape t) p (n./2 + 1).
Proof. by rewrite /rfft; case: ifP => // _ [<-]. Qed.

Lemma pad2_data t v ix :
  (get_dim ix 1 == 0%N) || (get_dim ix 2 == 0%N) ->
  data (pad_front (pad_front t 1 v) 2 v) ix = v.
Proof.
rewrite /=; case E2: (get_dim ix 2) => [|k] //=; rewrite orbF => /eqP E1.
by rewrite get_set_dim_neq // E1.
Qed.

Lemma pad2_dim1 t v :
  get_dim (shape (pad_front (pad_front t 1 v) 2 v)) 1
  = (get_dim (shape t) 1).+1.
Proof. by rewrite /= get_set_dim_neq // get_set_dim. Qed.

Lemma pad2_dim2 t v :
  get_dim (shape (pad_front (pad_front t 1 v) 2 v)) 2
  = (get_dim (shape t) 2).+1.
Proof. by rewrite /= get_set_dim get_set_dim_neq. Qed.

Lemma dft1 (f : nat -> C) k : dft 1 f k = f 0%N.
Proof. by rewrite /dft big_nat1 mul0n expr0 invr1 mulr1. Qed.


(** On an input of width 1 they see the first column only. *)
Lemma rfft2_pad_col t v L1 r :
  rfft2 (pad_front (pad_front t 1 v) 2 v) L1 1 1 = Ok r ->
  forall ix, data r ix
    = dft L1 (fun j => if (j < (get_dim (shape t) 2).+1)%N then v else 0)
          (get_dim ix 2).
Proof.
rewrite /rfft2; rinv=> r0 Er0 Er ix.
rewrite (fft_data Er); apply: eq_bigr => j _.
rewrite /along (rfft_shape Er0) get_set_dim_neq // pad2_dim2.
case: ifP => // _; rewrite (rfft_data Er0) dft1 /along pad2_dim1.
rewrite [(0 < _.+1)%N]/= pad2_data // get_set_dim eqxx.
by rewrite get_set_dim_neq.
Qed.




(** *** Zero parameters *)










(** *** Layers without dynamics *)

Lemma fft_shape t n p r :
  fft t n p = Ok r -> shape r = set_dim (shape t) p n.
Proof. by rewrite /fft; case: ifP => // _ [<-]. Qed.





















(** *** The constructors *)

(** X23: the constructor of the one-dimensional layer fails its
    assertion exactly when the layer is not mimo and the two dimensions
    differ; otherwise it stores the order and the two flags, and gives
    h0, the numerators and the denominator the shapes (shape..., 1),
    (2, shape..., order) and (shape..., order), where shape is
    (input_dim, output_dim) with mimo and (input_dim,) without. *)
Theorem LTI_constructor (input_dim output_dim ord : nat) (c mi z : bool) :
  if mi || (input_dim == output_dim) then
    exists l, [/\ LTI_init input_dim output_dim ord c mi z = Ok l,
                  LTI_wf input_dim output_dim l,
                  order l = ord, causal l = c & mimo l = mi]
  else LTI_init input_dim output_dim ord c mi z = Err AssertionError.
Proof.
case Hmi: (mi || _); last by rewrite /LTI_init Hmi.
case El: (LTI_init input_dim output_dim ord c mi z) => [l|e].
  by have [Hwf Hm Hc Ho] := LTI_init_wf El; exists l.
by move: El; rewrite /LTI_init Hmi.
Qed.

(** X24: the same for the two-dimensional layer, with the shapes
    (shape..., 1, 1), (4, shape..., order, order) and
    (shape..., order, order). *)
Theorem LTI2d_constructor (input_dim output_dim ord : nat) (c mi z : bool) :
  if mi || (input_dim == output_dim) then
    exists l, [/\ LTI2d_init input_dim output_dim ord c mi z = Ok l,
                  LTI2d_wf input_dim output_dim l,
                  order2 l = ord, causal2 l = c & mimo2 l = mi]
  else LTI2d_init input_dim output_dim ord c mi z = Err AssertionError.
Proof.
case Hmi: (mi || _); last by rewrite /LTI2d_init Hmi.
case El: (LTI2d_init input_dim output_dim ord c mi z) => [l|e].
  by have [Hwf Hm Hc Ho] := LTI2d_init_wf El; exists l.
by move: El; rewrite /LTI2d_init Hmi.
Qed.

End TimeDomain.
End Layers.

(** ** Instances over the algebraic numbers *)

Local Open Scope ring_scope.

Definition omegaC (n : nat) : algC :=
  if n is n'.+1 then sval (C_prim_root_exists (ltn0Sn n')) else 1.



Definition x_empty : tensor algC := Tensor [:: 0; 1]%N (fun _ => 1).
Definition x_flat : tensor algC := Tensor [:: 3]%N (fun _ => 1).


(** A causal single-channel layer of order 1 with a unit direct term, unit
    numerators and a zero denominator, and a layer of order 0 with the
    direct term 2. *)
Definition l_fir : LTI algC :=
  MkLTI 1 true true (Tensor [:: 1; 1; 1]%N (fun _ => 1))
        (Tensor [:: 2; 1; 1; 1]%N (fun _ => 1)) (zeros algC [:: 1; 1; 1]%N).











Lemma LTI_forward_empty_sequence_witness :
  LTI_call omegaC l_fir x_empty = Err RuntimeError.
Proof.
exact: (@LTI_forward_empty_sequence algC omegaC l_fir x_empty [::] 1 erefl).
Defined.

Lemma LTI_forward_low_rank_witness :
  LTI_call omegaC l_fir x_flat = Err ValueError.
Proof. exact: (@LTI_forward_low_rank algC omegaC l_fir x_flat isT). Defined.





(** Instances of the two-dimensional layer: one of order 1, one of
    order 0 with the direct term 2, and the zero-initialised layer of
    order 0; inputs of height 2 and of height 1. *)
Definition l2_fir : LTI2d algC :=
  MkLTI2d 1 true true (Tensor [:: 1; 1; 1; 1]%N (fun _ => 1))
          (Tensor [:: 4; 1; 1; 1; 1]%N (fun _ => 1))
          (zeros algC [:: 1; 1; 1; 1]%N).



Definition x2_empty : tensor algC := Tensor [:: 0; 2; 1]%N (fun _ => 1).
Definition x2_flat : tensor algC := Tensor [:: 3; 1]%N (fun _ => 1).










Lemma LTI2d_forward_empty_axis_witness :
  LTI2d_call omegaC l2_fir x2_empty = Err RuntimeError.
Proof.
exact: (@LTI2d_forward_empty_axis algC omegaC l2_fir x2_empty [::] 0 2 1
          isT erefl).
Defined.

Lemma LTI2d_forward_low_rank_witness :
  LTI2d_call omegaC l2_fir x2_flat = Err ValueError.
Proof. exact: (@LTI2d_forward_low_rank algC omegaC l2_fir x2_flat isT). Defined.




End Models.
